(** * SEO blog generator: the orchestration pipeline of [main.py]

    A shallow embedding of [extract_video_id], [full_pipeline] and the
    [/run-pipeline] endpoint, and the properties of the orchestration
    contract that hold of them.

    Python objects are modelled by value:
    - a [str] is a [string]; the pattern of [extract_video_id] and the
      sentinel of the transcript test are pure ASCII, so that matching on
      the bytes of the UTF-8 encoding and on the code points agree;
    - a [dict] with string keys is a [gmap string pyval];
    - the dict that the variable [state] refers to is the [st] component of
      the [world] threaded through the [Py] monad: a callee that mutates
      the dict it is given changes [st];
    - an exception is an [exn]; the type stands for the instances of
      Python's [Exception], which is what [except Exception] in
      [run_pipeline] catches;
    - [await f(x)] on a collaborator is a call: the pipeline suspends until
      the collaborator has completed, nothing else runs in between;
    - what [print] and [traceback.print_exc] write to the console is not
      part of the model. *)

From stdpp Require Import gmap strings list fin_maps.
From Stdlib Require Import Ascii String ZArith.

Set Warnings "-register-all".


(** ** Values, exceptions, results *)

Inductive pyval : Type :=
  | VNone
  | VStr (s : string)
  | VDict (d : gmap string pyval).

(** [bool(v)]: [None], the empty string and the empty dict are falsy. *)
Definition truthy (v : pyval) : bool :=
  match v with
  | VNone => false
  | VStr s => negb (String.eqb s "")
  | VDict d => negb (Nat.eqb (size d) 0)
  end.

(** [a or b] *)
Definition py_or (a b : pyval) : pyval := if truthy a then a else b.

(** The text an f-string substitutes for [{v}]. The rendering of a
    non-empty dict depends on its insertion order, which a [gmap] does not
    keep; [full_pipeline] formats [video_url] only, after
    [extract_video_id] has raised on everything that is not a [str]
    (lemma [fetch_reached_video_url_str]). *)
Definition py_format (v : pyval) : string :=
  match v with
  | VStr s => s
  | VNone => "None"
  | VDict _ => "{...}"
  end.

(** An exception: its class and [str(e)]. *)
Record exn : Type := { exn_class : string; exn_str : string }.

Definition ValueError (msg : string) : exn :=
  {| exn_class := "ValueError"; exn_str := msg |}.
Definition TypeError (msg : string) : exn :=
  {| exn_class := "TypeError"; exn_str := msg |}.
(** [str(KeyError(k))] is [repr(k)]; the keys used here have no quote or
    escape in them. *)
Definition KeyError (key : string) : exn :=
  {| exn_class := "KeyError"; exn_str := "'" +:+ key +:+ "'" |}.

Inductive result (A : Type) : Type :=
  | Ok (a : A)
  | Raise (e : exn).
Arguments Ok {A} a.
Arguments Raise {A} e.

(** ** Strings: [in] and the pattern of [extract_video_id] *)

(** [needle in hay] on two strings. *)
Fixpoint py_in (needle hay : string) : bool :=
  if String.prefix needle hay then true
  else match hay with
       | EmptyString => false
       | String _ rest => py_in needle rest
       end.

(** The character class [[0-9A-Za-z_-]]. *)
Definition is_id_char (c : ascii) : bool :=
  let n := nat_of_ascii c in
  (Nat.leb 48 n && Nat.leb n 57)        (* 0-9 *)
  || (Nat.leb 65 n && Nat.leb n 90)     (* A-Z *)
  || (Nat.leb 97 n && Nat.leb n 122)    (* a-z *)
  || Nat.eqb n 95                       (* _ *)
  || Nat.eqb n 45.                      (* - *)

(** [[0-9A-Za-z_-]{n}] at the head of [s]: the text matched. *)
Fixpoint class_run (n : nat) (s : string) : option string :=
  match n with
  | O => Some EmptyString
  | S n' =>
      match s with
      | EmptyString => None
      | String c rest =>
          if is_id_char c then String c <$> class_run n' rest else None
      end
  end.

(** A literal at the head of [s]: what follows it. *)
Fixpoint literal (lit s : string) : option string :=
  match lit with
  | EmptyString => Some s
  | String a lit' =>
      match s with
      | EmptyString => None
      | String c rest => if Ascii.eqb a c then literal lit' rest else None
      end
  end.

(** [(?:v=|\/)([0-9A-Za-z_-]{11})] anchored at the head of [s]: group 1.
    The alternatives are tried in order, the second one when the first
    fails anywhere. *)
Definition match_here (s : string) : option string :=
  match literal "v=" s ≫= class_run 11 with
  | Some g => Some g
  | None => literal "/" s ≫= class_run 11
  end.

(** [re.search]: the match at the leftmost position that has one. *)
Fixpoint re_search (s : string) : option string :=
  match match_here s with
  | Some g => Some g
  | None =>
      match s with
      | EmptyString => None
      | String _ rest => re_search rest
      end
  end.

(** ** The interpreter state and the [Py] monad *)

Inductive step : Type :=
  | GetTranscriptWithBackoff
  | ExtractSpecificDetails
  | GenerateTopicKeyword
  | GenerateIntro
  | RefineIntro
  | GenerateGuide
  | GenerateIssueTroubleshooting
  | GenerateConclusion
  | GenerateCta
  | GenerateCustomizationTips
  | DomainAligned
  | RewriteBlog.

(** One invocation of a collaborator: which one, and the contents of the
    dict it was handed. *)
Record call : Type := { callee : step; arg : gmap string pyval }.

(** [st]: the contents of the dict that [state] refers to; [log]: the
    collaborators invoked so far, oldest first. *)
Record world : Type := { st : gmap string pyval; log : list call }.

Definition Py (A : Type) : Type := world → world * result A.

#[global] Instance Py_ret : MRet Py := λ A a w, (w, Ok a).
#[global] Instance Py_bind : MBind Py := λ A B f m w,
  match m w with
  | (w', Ok a) => f a w'
  | (w', Raise e) => (w', Raise e)
  end.

Definition raise {A : Type} (e : exn) : Py A := λ w, (w, Raise e).

(** [state.get(k)] *)
Definition state_get (k : string) : Py pyval :=
  λ w, (w, Ok (default VNone (st w !! k))).

(** [state[k]] *)
Definition state_getitem (k : string) : Py pyval :=
  λ w, match st w !! k with
       | Some v => (w, Ok v)
       | None => (w, Raise (KeyError k))
       end.

(** [state[k] = v] *)
Definition state_setitem (k : string) (v : pyval) : Py unit :=
  λ w, ({| st := <[k := v]> (st w); log := log w |}, Ok tt).

(** the object [state] refers to *)
Definition state_ref : Py (gmap string pyval) := λ w, (w, Ok (st w)).

(** [state = d] *)
Definition state_rebind (d : gmap string pyval) : Py unit :=
  λ w, ({| st := d; log := log w |}, Ok tt).

(** [v[k]] on a value, with a string [k]. The texts of the two
    [TypeError]s are those of CPython 3.10; later versions add the type of
    the index to the first. *)
Definition py_getitem (v : pyval) (k : string) : result pyval :=
  match v with
  | VDict d =>
      match d !! k with
      | Some x => Ok x
      | None => Raise (KeyError k)
      end
  | VStr _ => Raise (TypeError "string indices must be integers")
  | VNone => Raise (TypeError "'NoneType' object is not subscriptable")
  end.

Definition lift_result {A : Type} (r : result A) : Py A := λ w, (w, r).

(** A collaborator is handed the dict and may mutate it before it returns
    or raises: it maps the contents of the dict to its contents after the
    call and the outcome. *)
Definition collaborator (A : Type) : Type :=
  gmap string pyval → gmap string pyval * result A.

(** [f(state)] *)
Definition invoke {A : Type} (s : step) (f : collaborator A) : Py A :=
  λ w, let '(d, r) := f (st w) in
       ({| st := d; log := log w ++ [{| callee := s; arg := st w |}] |}, r).

(** ** [extract_video_id] *)

(** [re.search(pattern, video_url)] with [match.group(1)] taken when there
    is a match; anything but a [str] is a [TypeError] (its text is that of
    CPython 3.10). *)
Definition search_video_id (video_url : pyval) : result (option string) :=
  match video_url with
  | VStr s => Ok (re_search s)
  | _ => Raise (TypeError "expected string or bytes-like object")
  end.

Definition extract_video_id : Py (gmap string pyval) :=
  v ← state_get "video_url";
  let video_url := py_or v (VStr "") in
  m ← lift_result (search_video_id video_url);
  match m with
  | Some group1 =>
      state_setitem "video_id" (VStr group1);;
      state_ref
  | None => raise (ValueError "Could not extract video ID from URL")
  end.

(** ** The collaborators *)

(** The fetcher and the generators live in other packages of the
    repository; the orchestrator is verified for all of them.
    [get_transcript_with_backoff] returns the transcript text or its
    sentinel; [extract_specific_details] and [generate_topic_keyword]
    return a value that [full_pipeline] binds and never reads; the others
    return the dict that [state] is rebound to. [full_pipeline] calls each
    of them at most once in a run (lemma [invocations_initial_segment]), so
    a function of the contents of the dict stands for that one call, also
    for a collaborator whose answer varies from call to call. *)
Record collaborators : Type := {
  get_transcript_with_backoff : collaborator string;
  extract_specific_details : collaborator pyval;
  generate_topic_keyword : collaborator pyval;
  generate_intro : collaborator (gmap string pyval);
  refine_intro : collaborator (gmap string pyval);
  generate_guide : collaborator (gmap string pyval);
  generate_issue_troubleshooting : collaborator (gmap string pyval);
  generate_conclusion : collaborator (gmap string pyval);
  generate_cta : collaborator (gmap string pyval);
  generate_customization_tips : collaborator (gmap string pyval);
  domain_aligned : collaborator (gmap string pyval);
  rewrite_blog : collaborator (gmap string pyval)
}.

(** The exception, if any, an outcome carries. *)
Definition raised_by {A : Type} (r : gmap string pyval * result A) : option exn :=
  match r with
  | (_, Raise e) => Some e
  | (_, Ok _) => None
  end.

(** The exception, if any, that collaborator [s] raises on the dict [d]. *)
Definition raises (C : collaborators) (s : step) (d : gmap string pyval) : option exn :=
  match s with
  | GetTranscriptWithBackoff => raised_by (get_transcript_with_backoff C d)
  | ExtractSpecificDetails => raised_by (extract_specific_details C d)
  | GenerateTopicKeyword => raised_by (generate_topic_keyword C d)
  | GenerateIntro => raised_by (generate_intro C d)
  | RefineIntro => raised_by (refine_intro C d)
  | GenerateGuide => raised_by (generate_guide C d)
  | GenerateIssueTroubleshooting => raised_by (generate_issue_troubleshooting C d)
  | GenerateConclusion => raised_by (generate_conclusion C d)
  | GenerateCta => raised_by (generate_cta C d)
  | GenerateCustomizationTips => raised_by (generate_customization_tips C d)
  | DomainAligned => raised_by (domain_aligned C d)
  | RewriteBlog => raised_by (rewrite_blog C d)
  end.

(** ** [full_pipeline] *)

(** [state = await f(state)] *)
Definition reassign (s : step) (f : collaborator (gmap string pyval)) : Py unit :=
  d ← invoke s f;
  state_rebind d.

(** The marker of a fetch that gave up. *)
Definition sentinel : string := "Failed after multiple retries".

Definition full_pipeline (C : collaborators) : Py (gmap string pyval) :=
  video_url ← (v ← state_get "video_url"; mret (py_or v (VStr "")));
  domain_url ← (v ← state_get "domain_url"; mret (py_or v (VStr "")));
  raw_blog ← (v ← state_get "raw_blog"; mret (py_or v (VStr "")));
  let results : gmap string pyval := ∅ in
  extract_video_id;;
  transcript ← invoke GetTranscriptWithBackoff (get_transcript_with_backoff C);
  if negb (truthy (VStr transcript)) || py_in sentinel transcript
  then mret {[ "error" := VStr ("Transcript not available for: " +:+ py_format video_url) ]}
  else
    state_setitem "transcript" (VStr transcript);;
    specific_details ← invoke ExtractSpecificDetails (extract_specific_details C);
    topic_keyword ← invoke GenerateTopicKeyword (generate_topic_keyword C);
    k ← state_get "extracted_keywords";
    d ← state_get "extracted_section";
    state_setitem "combined_data_keyword_specific_details"
      (VDict {[ "topic_keyword" := k; "specific_details" := d ]});;
    reassign GenerateIntro (generate_intro C);;
    reassign RefineIntro (refine_intro C);;
    reassign GenerateGuide (generate_guide C);;
    reassign GenerateIssueTroubleshooting (generate_issue_troubleshooting C);;
    reassign GenerateConclusion (generate_conclusion C);;
    reassign GenerateCta (generate_cta C);;
    reassign GenerateCustomizationTips (generate_customization_tips C);;
    v1 ← state_get "refined_intro";
    v2 ← state_get "guide";
    v3 ← state_get "issue_troubleshoot";
    v4 ← state_get "conclusion";
    v5 ← state_get "cta";
    v6 ← state_get "customization_tips";
    state_setitem "combined_data"
      (VDict {[ "introduction" := v1; "guide" := v2; "issue_troubleshoot" := v3;
                "conclusion" := v4; "cta" := v5; "customization_tips" := v6 ]});;
    reassign DomainAligned (domain_aligned C);;
    reassign RewriteBlog (rewrite_blog C);;
    final_blog ← state_getitem "final_blog";
    polished ← lift_result (py_getitem final_blog "Polished_Blog");
    let results := <[ "Final_Blog" := polished ]> results in
    mret results.

(** ** The endpoint *)

Record PipelineRequest : Type := {
  video_url : string;
  domain_url : string;
  raw_blog : string
}.

Definition initial_state (request : PipelineRequest) : gmap string pyval :=
  list_to_map
    [ ("video_url", VStr (video_url request));
      ("domain_url", VStr (domain_url request));
      ("raw_blog", VStr (raw_blog request));
      ("video_id", VNone);
      ("transcript", VNone);
      ("topic_keyword", VNone);
      ("specific_details", VNone);
      ("introduction", VNone);
      ("refined_intro", VNone);
      ("guide", VNone);
      ("issue_troubleshoot", VNone);
      ("conclusion", VNone);
      ("cta", VNone);
      ("customization_tips", VNone);
      ("domain_aligned", VNone);
      ("final_blog", VNone) ].

(** How the handler ends: it returns [results], or raises
    [HTTPException(status_code, detail)]. *)
Inductive handler_outcome : Type :=
  | Return (results : gmap string pyval)
  | HTTPException (status_code : Z) (detail : string).

(** [full_pipeline(d)], started with nothing invoked yet. *)
Definition pipeline_run (C : collaborators) (d : gmap string pyval)
  : world * result (gmap string pyval) :=
  full_pipeline C {| st := d; log := [] |}.

Definition run_pipeline (C : collaborators) (request : PipelineRequest)
  : handler_outcome :=
  match snd (pipeline_run C (initial_state request)) with
  | Ok results => Return results
  | Raise e => HTTPException 500 (exn_str e)
  end.

(** The collaborators invoked while a request is served. *)
Definition invocations (C : collaborators) (request : PipelineRequest) : list call :=
  log (fst (pipeline_run C (initial_state request))).

(** What the framework sends for an outcome of the handler: a returned
    dict is the JSON body of a 200 response (the route declares no
    response model and no status code), an [HTTPException] is a response
    with its status code and the body [{"detail": detail}]. *)
Record http_response : Type := {
  status : Z;
  body : gmap string pyval
}.

Definition respond (o : handler_outcome) : http_response :=
  match o with
  | Return results => {| status := 200; body := results |}
  | HTTPException code detail =>
      {| status := code; body := {[ "detail" := VStr detail ]} |}
  end.

Definition serve (C : collaborators) (request : PipelineRequest) : http_response :=
  respond (run_pipeline C request).

(** ** What the pattern means *)

Fixpoint all_id_chars (s : string) : bool :=
  match s with
  | EmptyString => true
  | String c rest => is_id_char c && all_id_chars rest
  end.

(** At offset [i] of [url] there is [v=] or [/], and the eleven characters
    after it are [id], all of them letters, digits, [_] or [-]. *)
Definition id_at (url : string) (i : nat) (id : string) : Prop :=
  ∃ pre sep post,
    url = pre +:+ sep +:+ id +:+ post ∧ String.length pre = i
    ∧ (sep = "v=" ∨ sep = "/")
    ∧ String.length id = 11 ∧ all_id_chars id = true.

(** [needle] occurs in [hay]. *)
Definition occurs_in (needle hay : string) : Prop :=
  ∃ pre post, hay = pre +:+ needle +:+ post.

(** The order in which [full_pipeline] calls its collaborators. *)
Definition pipeline_order : list step :=
  [ GetTranscriptWithBackoff; ExtractSpecificDetails; GenerateTopicKeyword;
    GenerateIntro; RefineIntro; GenerateGuide; GenerateIssueTroubleshooting;
    GenerateConclusion; GenerateCta; GenerateCustomizationTips;
    DomainAligned; RewriteBlog ].

(** The two dicts that [full_pipeline] assembles from the state [d]. *)
Definition keyword_specific_details (d : gmap string pyval) : pyval :=
  VDict {[ "topic_keyword" := default VNone (d !! "extracted_keywords");
           "specific_details" := default VNone (d !! "extracted_section") ]}.

Definition combined_sections (d : gmap string pyval) : pyval :=
  VDict {[ "introduction" := default VNone (d !! "refined_intro");
           "guide" := default VNone (d !! "guide");
           "issue_troubleshoot" := default VNone (d !! "issue_troubleshoot");
           "conclusion" := default VNone (d !! "conclusion");
           "cta" := default VNone (d !! "cta");
           "customization_tips" := default VNone (d !! "customization_tips") ]}.

(** ** Stand-ins for the collaborators, to run the pipeline on *)

(** A generator that writes [v] under [k] into the dict it is handed and
    returns that dict. *)
Definition writes (k : string) (v : pyval) : collaborator (gmap string pyval) :=
  λ d, (<[k := v]> d, Ok (<[k := v]> d)).

(** A generator that writes [v] under [k] and returns [v]. *)
Definition writes_and_returns (k : string) (v : pyval) : collaborator pyval :=
  λ d, (<[k := v]> d, Ok v).

Definition fails {A : Type} (e : exn) : collaborator A := λ d, (d, Raise e).

Definition stub_collaborators (transcript : string) : collaborators := {|
  get_transcript_with_backoff := λ d, (d, Ok transcript);
  extract_specific_details :=
    writes_and_returns "extracted_section" (VDict {[ "Tools" := VStr "n8n" ]});
  generate_topic_keyword :=
    writes_and_returns "extracted_keywords" (VDict {[ "Topic" := VStr "automation" ]});
  generate_intro := writes "introduction" (VStr "intro");
  refine_intro := writes "refined_intro" (VStr "refined intro");
  generate_guide := writes "guide" (VStr "guide");
  generate_issue_troubleshooting := writes "issue_troubleshoot" (VStr "issues");
  generate_conclusion := writes "conclusion" (VStr "conclusion");
  generate_cta := writes "cta" (VStr "cta");
  generate_customization_tips := writes "customization_tips" (VStr "tips");
  domain_aligned := writes "domain_aligned_cta" (VStr "aligned cta");
  rewrite_blog := writes "final_blog" (VDict {[ "Polished_Blog" := VStr "the blog" ]})
|}.

(** The same, with a specific-details extractor that raises. *)
Definition stub_details_failing (transcript : string) : collaborators := {|
  get_transcript_with_backoff := λ d, (d, Ok transcript);
  extract_specific_details := fails (ValueError "no JSON in the model output");
  generate_topic_keyword :=
    writes_and_returns "extracted_keywords" (VDict {[ "Topic" := VStr "automation" ]});
  generate_intro := writes "introduction" (VStr "intro");
  refine_intro := writes "refined_intro" (VStr "refined intro");
  generate_guide := writes "guide" (VStr "guide");
  generate_issue_troubleshooting := writes "issue_troubleshoot" (VStr "issues");
  generate_conclusion := writes "conclusion" (VStr "conclusion");
  generate_cta := writes "cta" (VStr "cta");
  generate_customization_tips := writes "customization_tips" (VStr "tips");
  domain_aligned := writes "domain_aligned_cta" (VStr "aligned cta");
  rewrite_blog := writes "final_blog" (VDict {[ "Polished_Blog" := VStr "the blog" ]})
|}.

Definition sample_request : PipelineRequest := {|
  video_url := "https://youtu.be/abc12345678";
  domain_url := "https://example.com";
  raw_blog := "draft text"
|}.

(** The call of the rewriter in the run of [sample_request] on the
    stand-ins. *)
Definition sample_rewriter_call : call :=
  Eval vm_compute in
    default {| callee := RewriteBlog; arg := ∅ |}
      (last (invocations (stub_collaborators "hello") sample_request)).

(** The call of the intro generator in the same run. *)
Definition sample_intro_call : call :=
  Eval vm_compute in
    default {| callee := GenerateIntro; arg := ∅ |}
      (invocations (stub_collaborators "hello") sample_request !! 3).

(** The call of the specific-details extractor in the run on the stand-ins
    where it raises. *)
Definition sample_details_call : call :=
  Eval vm_compute in
    default {| callee := ExtractSpecificDetails; arg := ∅ |}
      (last (invocations (stub_details_failing "hello") sample_request)).

(** The same as [stub_collaborators], with a rewriter that returns the
    state as it got it. *)
Definition stub_rewriter_silent (transcript : string) : collaborators := {|
  get_transcript_with_backoff := λ d, (d, Ok transcript);
  extract_specific_details :=
    writes_and_returns "extracted_section" (VDict {[ "Tools" := VStr "n8n" ]});
  generate_topic_keyword :=
    writes_and_returns "extracted_keywords" (VDict {[ "Topic" := VStr "automation" ]});
  generate_intro := writes "introduction" (VStr "intro");
  refine_intro := writes "refined_intro" (VStr "refined intro");
  generate_guide := writes "guide" (VStr "guide");
  generate_issue_troubleshooting := writes "issue_troubleshoot" (VStr "issues");
  generate_conclusion := writes "conclusion" (VStr "conclusion");
  generate_cta := writes "cta" (VStr "cta");
  generate_customization_tips := writes "customization_tips" (VStr "tips");
  domain_aligned := writes "domain_aligned_cta" (VStr "aligned cta");
  rewrite_blog := λ d, (d, Ok d)
|}.

(** Calls of the runs of [sample_request] on the stand-ins: the fetcher
    and the domain aligner of the first, the rewriter of the last. *)
Definition sample_fetch_call : call :=
  Eval vm_compute in
    default {| callee := GetTranscriptWithBackoff; arg := ∅ |}
      (invocations (stub_collaborators "hello") sample_request !! 0).

Definition sample_aligner_call : call :=
  Eval vm_compute in
    default {| callee := DomainAligned; arg := ∅ |}
      (invocations (stub_collaborators "hello") sample_request !! 10).

Definition sample_silent_rewriter_call : call :=
  Eval vm_compute in
    default {| callee := RewriteBlog; arg := ∅ |}
      (last (invocations (stub_rewriter_silent "hello") sample_request)).

(** * Properties *)

(** ** Strings *)

#[local] Arguments String.append !_ _ / : simpl nomatch.

Lemma literal_spec lit s r : literal lit s = Some r ↔ s = lit +:+ r.
Proof.
  revert s. induction lit as [|a lit IH]; intros s; simpl.
  - split; [intros [= ->] | intros ->]; done.
  - destruct s as [|c s]; [split; [done | intros [=]]|].
    destruct (Ascii.eqb_spec a c) as [->|Hne].
    + rewrite IH. split; [intros -> | intros [= ->]]; done.
    + split; [done | intros [= -> _]; done].
Qed.

Lemma prefix_spec p s : String.prefix p s = true ↔ ∃ post, s = p +:+ post.
Proof.
  revert s. induction p as [|a p IH]; intros s.
  - split; [eauto | by destruct s].
  - destruct s as [|c s]; simpl; [split; [done | intros [? [=]]]|].
    destruct (ascii_dec a c) as [->|Hne].
    + rewrite IH. split; intros [post H]; exists post; simpl in *; congruence.
    + split; [done | intros [? [= -> _]]; done].
Qed.

Lemma py_in_unfold needle hay :
  py_in needle hay
  = if String.prefix needle hay then true
    else match hay with
         | EmptyString => false
         | String _ rest => py_in needle rest
         end.
Proof. by destruct hay. Qed.

Lemma py_in_spec needle hay : py_in needle hay = true ↔ occurs_in needle hay.
Proof.
  induction hay as [|c hay IH]; rewrite py_in_unfold.
  - destruct (String.prefix needle "") eqn:Hp.
    + split; [intros _ | done]. apply prefix_spec in Hp as [post Hp].
      exists "", post. done.
    + split; [done|]. intros ([|? pre] & post & H); [|done].
      apply not_true_iff_false in Hp. destruct Hp. apply prefix_spec. eauto.
  - destruct (String.prefix needle (String c hay)) eqn:Hp.
    + split; [intros _ | done]. apply prefix_spec in Hp as [post Hp].
      exists "", post. done.
    + rewrite IH. split.
      * intros (pre & post & ->). exists (String c pre), post. done.
      * intros ([|a pre] & post & H).
        -- apply not_true_iff_false in Hp. destruct Hp. apply prefix_spec. eauto.
        -- simpl in H. injection H as -> ->. exists pre, post. done.
Qed.

Lemma class_run_spec n s g :
  class_run n s = Some g
  ↔ ∃ post, s = g +:+ post ∧ String.length g = n ∧ all_id_chars g = true.
Proof.
  revert s g. induction n as [|n IH]; intros s g; simpl.
  - split.
    + intros [= <-]. exists s. done.
    + intros (post & _ & Hlen & _). destruct g; [done | discriminate].
  - destruct s as [|c s].
    + split; [done|]. intros (post & H & Hlen & _). destruct g; discriminate.
    + destruct (is_id_char c) eqn:Hc.
      * destruct (class_run n s) as [g'|] eqn:Hrun; simpl.
        -- apply IH in Hrun as (post & -> & Hlen & Hall). split.
           ++ intros [= <-]. exists post. simpl. rewrite Hc, Hlen. done.
           ++ intros (post' & H & Hlen' & Hall').
              destruct g as [|a g]; [discriminate|].
              simpl in H, Hlen', Hall'. injection H as <- H. f_equal. f_equal.
              apply andb_true_iff in Hall' as [_ Hall'].
              assert (class_run n (g' +:+ post) = Some g) as Hg.
              { apply IH. exists post'. split; [done|]. split; [lia | done]. }
              assert (class_run n (g' +:+ post) = Some g') as Hg'.
              { apply IH. eauto. }
              congruence.
        -- split; [done|]. intros (post' & H & Hlen' & Hall').
           destruct g as [|a g]; [discriminate|].
           simpl in H, Hlen', Hall'. injection H as <- H.
           apply andb_true_iff in Hall' as [_ Hall'].
           assert (class_run n s = Some g) as Hg; [|congruence].
           apply IH. exists post'. split; [done|]. split; [lia | done].
      * split; [done|]. intros (post' & H & Hlen' & Hall').
        destruct g as [|a g]; [discriminate|].
        simpl in H, Hall'. injection H as <- H. rewrite Hc in Hall'. done.
Qed.

Lemma match_here_spec s g : match_here s = Some g ↔ id_at s 0 g.
Proof.
  unfold match_here, id_at. split.
  - destruct (literal "v=" s ≫= class_run 11) as [g1|] eqn:H1.
    + intros [= ->]. apply bind_Some in H1 as (r & Hl & H1).
      apply literal_spec in Hl as ->.
      apply class_run_spec in H1 as (post & -> & Hlen & Hall).
      exists "", "v=", post. eauto 10.
    + intros (r & Hl & H2)%bind_Some.
      apply literal_spec in Hl as ->.
      apply class_run_spec in H2 as (post & -> & Hlen & Hall).
      exists "", "/", post. eauto 10.
  - intros (pre & sep & post & -> & Hpre & Hsep & Hlen & Hall).
    destruct pre; [|discriminate].
    assert (class_run 11 (g +:+ post) = Some g) as Hrun.
    { apply class_run_spec. eauto. }
    destruct Hsep as [-> | ->].
    + assert (literal "v=" ("" +:+ "v=" +:+ g +:+ post) ≫= class_run 11 = Some g)
        as -> by (apply bind_Some; eauto).
      done.
    + assert (literal "v=" ("" +:+ "/" +:+ g +:+ post) ≫= class_run 11 = None)
        as -> by done.
      apply bind_Some; eauto.
Qed.

Lemma id_at_tail c s i g : id_at (String c s) (S i) g ↔ id_at s i g.
Proof.
  unfold id_at. split.
  - intros (pre & sep & post & H & Hpre & Hrest).
    destruct pre as [|a pre]; [discriminate|].
    simpl in H, Hpre. injection H as <- ->.
    exists pre, sep, post. split; [done|]. split; [lia | done].
  - intros (pre & sep & post & -> & Hpre & Hrest).
    exists (String c pre), sep, post. split; [done|]. split; [simpl; lia | done].
Qed.

Lemma id_at_empty i g : ¬ id_at "" i g.
Proof.
  intros (pre & sep & post & H & _ & Hsep & _).
  destruct pre; [|discriminate]. destruct Hsep as [-> | ->]; discriminate.
Qed.

Lemma id_at_functional s i g g' : id_at s i g → id_at s i g' → g = g'.
Proof.
  revert s. induction i as [|i IH]; intros s H H'.
  - apply match_here_spec in H, H'. congruence.
  - destruct s as [|c s]; [by apply id_at_empty in H|].
    apply id_at_tail in H, H'. eauto.
Qed.

(** [re.search] finds the leftmost occurrence. *)
Lemma re_search_Some s g :
  re_search s = Some g → ∃ i, id_at s i g ∧ ∀ j g', id_at s j g' → i ≤ j.
Proof.
  induction s as [|c s IH]; simpl.
  - done.
  - destruct (match_here (String c s)) as [g0|] eqn:Hm.
    + intros [= ->]. exists 0. split; [by apply match_here_spec | intros; lia].
    + intros (i & Hi & Hleft)%IH. exists (S i). split; [by apply id_at_tail|].
      intros [|j] g' Hj.
      * apply match_here_spec in Hj. congruence.
      * apply id_at_tail, Hleft in Hj. lia.
Qed.

Lemma re_search_None s : re_search s = None ↔ ∀ i g, ¬ id_at s i g.
Proof.
  induction s as [|c s IH]; simpl.
  - split; [|done]. intros _ i g. apply id_at_empty.
  - destruct (match_here (String c s)) as [g0|] eqn:Hm.
    + split; [done|]. intros H. destruct (H 0 g0). by apply match_here_spec.
    + rewrite IH. split.
      * intros H [|i] g Hi.
        -- apply match_here_spec in Hi. congruence.
        -- apply id_at_tail in Hi. by apply H in Hi.
      * intros H i g Hi. apply (H (S i) g). by apply id_at_tail.
Qed.

Lemma re_search_leftmost s i g :
  id_at s i g → (∀ j g', id_at s j g' → i ≤ j) → re_search s = Some g.
Proof.
  intros Hi Hleft. destruct (re_search s) as [g'|] eqn:Hs.
  - apply re_search_Some in Hs as (i' & Hi' & Hleft').
    assert (i' = i) as -> by (apply Hleft in Hi'; apply Hleft' in Hi; lia).
    f_equal. eapply id_at_functional; eauto.
  - exfalso. eapply re_search_None; eauto.
Qed.

Example search_watch_url :
  re_search "https://www.youtube.com/watch?v=dQw4w9WgXcQ" = Some "dQw4w9WgXcQ".
Proof. reflexivity. Qed.

Example search_short_url :
  re_search "https://youtu.be/abc12345678" = Some "abc12345678".
Proof. reflexivity. Qed.

(** More than eleven characters of the class after the separator: the
    first eleven are taken. *)
Example search_long_run : re_search "v=abcdefghijklmnop" = Some "abcdefghijk".
Proof. reflexivity. Qed.

Example search_short_run : re_search "https://youtu.be/abc123" = None.
Proof. reflexivity. Qed.

(** ** Running a [Py] computation

    One equation for each statement form of the pipeline, and the tactics
    that run [full_pipeline] symbolically with them. *)

Section run.
Context {A B : Type}.
Implicit Types (f : A → Py B) (w : world).

Lemma run_bind (m : Py A) f w :
  (m ≫= f) w
  = match m w with
    | (w', Ok a) => f a w'
    | (w', Raise e) => (w', Raise e)
    end.
Proof. reflexivity. Qed.

Lemma run_bind_mret (a : A) f w : (mret a ≫= f) w = f a w.
Proof. reflexivity. Qed.

Lemma run_bind_raise (e : exn) f w : (raise e ≫= f) w = (w, Raise e).
Proof. reflexivity. Qed.

Lemma run_bind_bind {X : Type} (m : Py X) (g : X → Py A) f w :
  ((m ≫= g) ≫= f) w = (m ≫= λ x, g x ≫= f) w.
Proof.
  unfold mbind, Py_bind. destruct (m w) as [w' [x|e]]; reflexivity.
Qed.

Lemma run_bind_lift_result (r : result A) f w :
  (lift_result r ≫= f) w
  = match r with Ok a => f a w | Raise e => (w, Raise e) end.
Proof. reflexivity. Qed.

Lemma run_bind_invoke s (c : collaborator A) f w :
  (invoke s c ≫= f) w
  = match c (st w) with
    | (d, Ok a) =>
        f a {| st := d; log := log w ++ [{| callee := s; arg := st w |}] |}
    | (d, Raise e) =>
        ({| st := d; log := log w ++ [{| callee := s; arg := st w |}] |}, Raise e)
    end.
Proof.
  unfold mbind, Py_bind, invoke. destruct (c (st w)) as [d [a|e]]; reflexivity.
Qed.
End run.

Section run_state.
Context {B : Type}.
Implicit Types (w : world).

Lemma run_bind_state_get k (f : pyval → Py B) w :
  (state_get k ≫= f) w = f (default VNone (st w !! k)) w.
Proof. reflexivity. Qed.

Lemma run_bind_state_getitem k (f : pyval → Py B) w :
  (state_getitem k ≫= f) w
  = match st w !! k with
    | Some v => f v w
    | None => (w, Raise (KeyError k))
    end.
Proof.
  unfold mbind, Py_bind, state_getitem. destruct (st w !! k); reflexivity.
Qed.

Lemma run_bind_state_setitem k v (f : unit → Py B) w :
  (state_setitem k v ≫= f) w = f tt {| st := <[k := v]> (st w); log := log w |}.
Proof. reflexivity. Qed.

Lemma run_bind_reassign s (c : collaborator (gmap string pyval)) (f : unit → Py B) w :
  (reassign s c ≫= f) w
  = match c (st w) with
    | (d, Ok d') =>
        f tt {| st := d'; log := log w ++ [{| callee := s; arg := st w |}] |}
    | (d, Raise e) =>
        ({| st := d; log := log w ++ [{| callee := s; arg := st w |}] |}, Raise e)
    end.
Proof.
  unfold reassign. rewrite run_bind_bind, run_bind_invoke.
  destruct (c (st w)) as [d [d'|e]]; reflexivity.
Qed.
End run_state.

Ltac py_step :=
  first
    [ rewrite run_bind_mret
    | rewrite run_bind_state_get
    | rewrite run_bind_state_setitem
    | rewrite run_bind_state_getitem
    | rewrite run_bind_lift_result
    | rewrite run_bind_reassign
    | rewrite run_bind_invoke
    | rewrite (run_bind extract_video_id)
    | rewrite run_bind_bind ];
  cbn beta iota zeta delta [st log app].

Lemma extract_video_id_cases w :
  (∃ e, extract_video_id w = (w, Raise e))
  ∨ (∃ url id,
       py_or (default VNone (st w !! "video_url")) (VStr "") = VStr url
       ∧ re_search url = Some id
       ∧ extract_video_id w
         = ({| st := <["video_id" := VStr id]> (st w); log := log w |},
            Ok (<["video_id" := VStr id]> (st w)))).
Proof.
  unfold extract_video_id. rewrite run_bind_state_get. cbv zeta.
  rewrite run_bind_lift_result.
  destruct (py_or _ _) as [|url|d]; simpl search_video_id; cbv iota; eauto.
  destruct (re_search url) as [id|] eqn:Hs; eauto 10.
Qed.

Ltac py_collab :=
  match goal with
  | H : ?c ?d = _ |- context [match ?c ?d with _ => _ end] => rewrite H
  | |- context [match ?c ?d with (_, _) => _ end] =>
      destruct (c d) as [? [?|?]] eqn:?
  end.

Ltac py_run := repeat (first [py_step | py_collab]).

(** ** [extract_video_id] *)

Lemma extract_video_id_str w url :
  st w !! "video_url" = Some (VStr url) →
  extract_video_id w
  = match re_search url with
    | Some id =>
        ({| st := <["video_id" := VStr id]> (st w); log := log w |},
         Ok (<["video_id" := VStr id]> (st w)))
    | None => (w, Raise (ValueError "Could not extract video ID from URL"))
    end.
Proof.
  intros Hurl. unfold extract_video_id, mbind, Py_bind, state_get.
  rewrite Hurl. simpl default.
  assert (py_or (VStr url) (VStr "") = VStr url) as ->.
  { unfold py_or, truthy. destruct (String.eqb_spec url ""); by subst. }
  unfold lift_result, search_video_id.
  destruct (re_search url); reflexivity.
Qed.

Lemma initial_state_video_url request :
  initial_state request !! "video_url" = Some (VStr (video_url request)).
Proof. reflexivity. Qed.

(** C10. When [extract_video_id] raises, whatever the reason, the dict it
    was handed (and the log) is exactly as it was before the call:
    [video_id] is written on the match branch only. *)
Theorem extract_video_id_raise_keeps_state w w' e :
  extract_video_id w = (w', Raise e) → w' = w.
Proof.
  intros H.
  destruct (extract_video_id_cases w) as [[e' He]|(url & id & _ & _ & He)];
    rewrite He in H; [by injection H | discriminate].
Qed.

Lemma extract_video_id_raise_keeps_state_witness :
  let w := {| st := {[ "video_url" := VStr "https://example.com/" ]}; log := [] |} in
  extract_video_id w
  = (w, Raise (ValueError "Could not extract video ID from URL"))
  ∧ w = w.
Proof.
  intros w. split; [reflexivity|].
  exact (extract_video_id_raise_keeps_state w w
           (ValueError "Could not extract video ID from URL") eq_refl).
Defined.

(** C3, as stated, fails: a URL may hold the pattern at several places,
    and the match that [re.search] reports is the leftmost one. Here [v=]
    is followed by exactly eleven characters of the class, and the id
    written is the start of a path segment further left. *)
Lemma extract_video_id_not_every_occurrence :
  let url := "https://www.youtube.com/attribution_link?u=/watch?v=dQw4w9WgXcQ" in
  let w := {| st := {[ "video_url" := VStr url ]}; log := [] |} in
  url = "https://www.youtube.com/attribution_link?u=/watch?" +:+ "v=" +:+ "dQw4w9WgXcQ" +:+ ""
  ∧ id_at url 50 "dQw4w9WgXcQ"
  ∧ st (fst (extract_video_id w)) !! "video_id" = Some (VStr "attribution")
  ∧ st (fst (extract_video_id w)) !! "video_id" ≠ Some (VStr "dQw4w9WgXcQ").
Proof.
  intros url w. split; [reflexivity|]. split; [|split; [reflexivity | discriminate]].
  exists "https://www.youtube.com/attribution_link?u=/watch?", "v=", "".
  repeat split; auto.
Qed.

(** C3, amended. For a [video_url] string in which [v=] or [/] is somewhere
    followed by eleven characters of the class, [extract_video_id] writes
    as [video_id] the eleven characters that follow the leftmost such
    place, and returns the state; for a [video_url] with no such place it
    raises [ValueError] and the state is untouched. *)
Theorem extract_video_id_leftmost w url :
  st w !! "video_url" = Some (VStr url) →
  ((∃ i id, id_at url i id) →
   ∃ i id,
     id_at url i id ∧ (∀ j id', id_at url j id' → i ≤ j)
     ∧ extract_video_id w
       = ({| st := <["video_id" := VStr id]> (st w); log := log w |},
          Ok (<["video_id" := VStr id]> (st w))))
  ∧ ((∀ i id, ¬ id_at url i id) →
     extract_video_id w
     = (w, Raise (ValueError "Could not extract video ID from URL"))).
Proof.
  intros Hurl. rewrite (extract_video_id_str _ _ Hurl). split.
  - intros (i & id & Hi). destruct (re_search url) as [g|] eqn:Hs.
    + apply re_search_Some in Hs as (i' & Hi' & Hleft). eauto 10.
    + exfalso. eapply re_search_None; eauto.
  - intros Hnone. apply re_search_None in Hnone. by rewrite Hnone.
Qed.

Lemma extract_video_id_leftmost_witness :
  let url := "https://youtu.be/abc12345678" in
  let w := {| st := {[ "video_url" := VStr url ]}; log := [] |} in
  st w !! "video_url" = Some (VStr url)
  ∧ (∃ i id, id_at url i id)
  ∧ ∃ i id,
      id_at url i id ∧ (∀ j id', id_at url j id' → i ≤ j)
      ∧ extract_video_id w
        = ({| st := <["video_id" := VStr id]> (st w); log := log w |},
           Ok (<["video_id" := VStr id]> (st w))).
Proof.
  intros url w.
  assert (∃ i id, id_at url i id) as Hex.
  { exists 16, "abc12345678". exists "https://youtu.be", "/", "". repeat split; auto. }
  split; [reflexivity|]. split; [exact Hex|].
  exact (proj1 (extract_video_id_leftmost w url eq_refl) Hex).
Defined.

(** ** The pipeline *)

Ltac py_branch :=
  match goal with
  | H : ?m !! ?k = _ |- context [match ?m !! ?k with Some _ => _ | None => _ end] =>
      rewrite H
  | H : py_getitem ?v ?k = _
    |- context [match py_getitem ?v ?k with Ok _ => _ | Raise _ => _ end] =>
      rewrite H
  | H : ?b = _ |- context [if ?b then _ else _] => rewrite H
  | |- context [match ?m !! ?k with Some _ => _ | None => _ end] =>
      destruct (m !! k) eqn:?
  | |- context [match py_getitem ?v ?k with Ok _ => _ | Raise _ => _ end] =>
      destruct (py_getitem v k) eqn:?
  | |- context [if ?b then _ else _] => destruct b eqn:?
  end.

(** Run to the end, splitting on every outcome that no hypothesis fixes. *)
Ltac py_exec := repeat (first [py_step | py_collab | py_branch]).

Ltac log_cases H :=
  repeat match type of H with
         | _ ∈ _ :: _ => apply elem_of_cons in H as [H|H]
         | _ ∈ [] => by apply elem_of_nil in H
         end.

(** Name the outcome of the run on the dict [d] and run the pipeline up to
    the call of [extract_video_id]. *)
Ltac pipeline_inv C d :=
  let w' := fresh "w'" in
  let r := fresh "r" in
  let Hrun := fresh "Hrun" in
  unfold pipeline_run;
  destruct (full_pipeline C {| st := d; log := [] |}) as [w' r] eqn:Hrun;
  revert Hrun; unfold full_pipeline; repeat py_step.

Lemma py_or_str s : py_or (VStr s) (VStr "") = VStr s.
Proof. unfold py_or, truthy. destruct (String.eqb_spec s ""); by subst. Qed.

Lemma initial_state_video_url_get request :
  default VNone (initial_state request !! "video_url") = VStr (video_url request).
Proof. reflexivity. Qed.

Ltac pipeline_inv_request C request :=
  unfold serve, run_pipeline, invocations;
  pipeline_inv C (initial_state request);
  rewrite (extract_video_id_str {| st := initial_state request; log := [] |} _
             (initial_state_video_url request));
  cbn [st log]; rewrite ?initial_state_video_url_get, ?py_or_str; cbn [py_format].

Lemma bad_transcript_spec t :
  negb (truthy (VStr t)) || py_in sentinel t = true
  ↔ t = "" ∨ occurs_in sentinel t.
Proof.
  rewrite orb_true_iff, py_in_spec, negb_true_iff. unfold truthy.
  rewrite negb_false_iff. destruct (String.eqb_spec t ""); intuition congruence.
Qed.

Lemma good_transcript_spec t :
  negb (truthy (VStr t)) || py_in sentinel t = false
  ↔ t ≠ "" ∧ ¬ occurs_in sentinel t.
Proof.
  pose proof (bad_transcript_spec t) as Hbad.
  destruct (negb (truthy (VStr t)) || py_in sentinel t).
  - split; [done|]. intros [Hne Hocc]. destruct Hbad as [[?|?] _]; done.
  - split; [intros _ | done].
    split; intros H; [assert (false = true) by (apply Hbad; by left)
                     | assert (false = true) by (apply Hbad; by right)]; done.
Qed.

(** C4. A request whose [video_url] has the pattern nowhere: the
    [ValueError] of [extract_video_id] leaves [full_pipeline] as it was
    raised, no collaborator has been invoked, and the endpoint answers 500
    with the message as detail. *)
Theorem unparsable_url_response C request :
  (∀ i id, ¬ id_at (video_url request) i id) →
  snd (pipeline_run C (initial_state request))
  = Raise (ValueError "Could not extract video ID from URL")
  ∧ invocations C request = []
  ∧ run_pipeline C request
    = HTTPException 500 "Could not extract video ID from URL"
  ∧ serve C request
    = {| status := 500;
         body := {[ "detail" := VStr "Could not extract video ID from URL" ]} |}.
Proof.
  intros Hnone%re_search_None. pipeline_inv_request C request.
  rewrite Hnone. by intros [<- <-]%pair_equal_spec.
Qed.

Lemma unparsable_url_response_witness :
  let request := {| video_url := "not a video link";
                    domain_url := "https://example.com";
                    raw_blog := "draft text" |} in
  (∀ i id, ¬ id_at (video_url request) i id)
  ∧ invocations (stub_collaborators "hello") request = []
  ∧ serve (stub_collaborators "hello") request
    = {| status := 500;
         body := {[ "detail" := VStr "Could not extract video ID from URL" ]} |}.
Proof.
  intros request.
  assert (∀ i id, ¬ id_at (video_url request) i id) as Hnone.
  { apply re_search_None. reflexivity. }
  split; [exact Hnone|].
  destruct (unparsable_url_response (stub_collaborators "hello") request Hnone)
    as (_ & Hlog & _ & Hserve).
  exact (conj Hlog Hserve).
Defined.

(** C1. A request whose transcript fetch returns the empty string, or a
    string in which the sentinel occurs: [full_pipeline] returns the
    one-entry dict with the error message for the request's [video_url],
    the fetch is the only collaborator invoked, and the endpoint answers
    200 with that dict as body. *)
Theorem transcript_unavailable_response C request c d t :
  c ∈ invocations C request →
  callee c = GetTranscriptWithBackoff →
  get_transcript_with_backoff C (arg c) = (d, Ok t) →
  t = "" ∨ occurs_in "Failed after multiple retries" t →
  snd (pipeline_run C (initial_state request))
  = Ok {[ "error" := VStr ("Transcript not available for: " +:+ video_url request) ]}
  ∧ invocations C request = [c]
  ∧ serve C request
    = {| status := 200;
         body := {[ "error" := VStr ("Transcript not available for: "
                                      +:+ video_url request) ]} |}.
Proof.
  intros Hc Hcallee Hfetch Hbad%bad_transcript_spec. revert Hc.
  pipeline_inv_request C request.
  destruct (re_search (video_url request)) as [id|] eqn:Hs;
    [|by intros [<- <-]%pair_equal_spec ?%elem_of_nil].
  py_exec; intros [<- <-]%pair_equal_spec Hc; cbn [fst snd log] in Hc;
    log_cases Hc; subst c; try discriminate Hcallee; cbn [arg] in Hfetch.
  all: try congruence.
  done.
Qed.

Lemma transcript_unavailable_response_witness :
  let C := stub_collaborators "Error: Failed after multiple retries (3)" in
  let c := {| callee := GetTranscriptWithBackoff;
              arg := <["video_id" := VStr "abc12345678"]> (initial_state sample_request) |} in
  c ∈ invocations C sample_request
  ∧ serve C sample_request
    = {| status := 200;
         body := {[ "error" := VStr "Transcript not available for: https://youtu.be/abc12345678" ]} |}.
Proof.
  intros C c.
  assert (c ∈ invocations C sample_request) as Hc.
  { change (c ∈ [c]). apply list_elem_of_here. }
  split; [exact Hc|].
  refine (proj2 (proj2 (transcript_unavailable_response C sample_request c
                          (arg c) "Error: Failed after multiple retries (3)"
                          Hc eq_refl eq_refl _))).
  right. exists "Error: ", " (3)". reflexivity.
Defined.

(** Two hypotheses on the outcome of one call or lookup: merge them. *)
Ltac unify_eqs :=
  repeat match goal with
         | H1 : ?l = _, H2 : ?l = _ |- _ => rewrite H1 in H2; simplify_eq
         end.

Ltac pipeline_inv_any C d :=
  pipeline_inv C d;
  let e := fresh "e" in
  let He := fresh "He" in
  let url := fresh "url" in
  let id := fresh "id" in
  let Hurl := fresh "Hurl" in
  let Hs := fresh "Hs" in
  destruct (extract_video_id_cases {| st := d; log := [] |})
    as [[e He]|(url & id & Hurl & Hs & He)];
  rewrite He; cbn [st log].

(** By the time a collaborator is invoked, [video_url] is a string:
    [py_format] is applied to nothing else. *)
Lemma fetch_reached_video_url_str C d c :
  c ∈ log (fst (pipeline_run C d)) →
  ∃ url, py_or (default VNone (d !! "video_url")) (VStr "") = VStr url.
Proof.
  pipeline_inv_any C d; [by intros [<- <-]%pair_equal_spec ?%elem_of_nil|].
  eauto.
Qed.

(** C2. A request whose run reaches the rewriter (every step before it
    has then succeeded), and whose rewriter returns a state with a
    [final_blog] dict that has a [Polished_Blog] entry [v]: the twelve
    collaborators have been invoked, and the endpoint answers 200 with the
    body [{"Final_Blog": v}] and nothing else in it. *)
Theorem success_response C request c x s fb v :
  c ∈ invocations C request →
  callee c = RewriteBlog →
  rewrite_blog C (arg c) = (x, Ok s) →
  s !! "final_blog" = Some (VDict fb) →
  fb !! "Polished_Blog" = Some v →
  map callee (invocations C request) = pipeline_order
  ∧ run_pipeline C request = Return {[ "Final_Blog" := v ]}
  ∧ serve C request = {| status := 200; body := {[ "Final_Blog" := v ]} |}.
Proof.
  intros Hc Hcallee Hrw Hfb Hv. revert Hc.
  pipeline_inv_request C request.
  destruct (re_search (video_url request)) as [id|] eqn:Hs;
    [|by intros [<- <-]%pair_equal_spec ?%elem_of_nil].
  py_exec; intros [<- <-]%pair_equal_spec Hc; cbn [fst snd log] in Hc;
    log_cases Hc; subst c; try discriminate Hcallee; cbn [arg] in Hrw;
    unify_eqs.
  all: match goal with
       | H : py_getitem _ _ = _ |- _ => cbn [py_getitem] in H; rewrite Hv in H
       end; simplify_eq.
  rewrite insert_empty. done.
Qed.

Lemma success_response_witness :
  let C := stub_collaborators "hello" in
  let c := sample_rewriter_call in
  c ∈ invocations C sample_request ∧ callee c = RewriteBlog
  ∧ serve C sample_request
    = {| status := 200; body := {[ "Final_Blog" := VStr "the blog" ]} |}.
Proof.
  intros C c.
  assert (c ∈ invocations C sample_request) as Hc.
  { apply (list_elem_of_lookup_2 _ 11). reflexivity. }
  split; [exact Hc|]. split; [reflexivity|].
  refine (proj2 (proj2 (success_response C sample_request c _ _
            {[ "Polished_Blog" := VStr "the blog" ]} (VStr "the blog")
            Hc eq_refl eq_refl _ eq_refl))).
  reflexivity.
Defined.

(** C8. In a run that reaches the rewriter, if the rewriter returns a
    state whose [final_blog] is a dict with a [Polished_Blog] entry, then
    [state["final_blog"]["Polished_Blog"]] is defined: [full_pipeline]
    returns, with that entry as [Final_Blog], and raises neither
    [KeyError] nor [TypeError]. *)
Theorem polished_blog_lookup_defined C d c x s fb :
  c ∈ log (fst (pipeline_run C d)) →
  callee c = RewriteBlog →
  rewrite_blog C (arg c) = (x, Ok s) →
  s !! "final_blog" = Some (VDict fb) →
  is_Some (fb !! "Polished_Blog") →
  ∃ v, fb !! "Polished_Blog" = Some v
       ∧ snd (pipeline_run C d) = Ok {[ "Final_Blog" := v ]}.
Proof.
  intros Hc Hcallee Hrw Hfb [v Hv]. exists v. split; [exact Hv|]. revert Hc.
  pipeline_inv_any C d; [by intros [<- <-]%pair_equal_spec ?%elem_of_nil|].
  py_exec; intros [<- <-]%pair_equal_spec Hc; cbn [fst snd log] in Hc;
    log_cases Hc; subst c; try discriminate Hcallee; cbn [arg] in Hrw;
    unify_eqs.
  all: match goal with
       | H : py_getitem _ _ = _ |- _ => cbn [py_getitem] in H; rewrite Hv in H
       end; simplify_eq.
  cbn [snd]. by rewrite insert_empty.
Qed.

Lemma polished_blog_lookup_defined_witness :
  let C := stub_collaborators "hello" in
  let c := sample_rewriter_call in
  c ∈ log (fst (pipeline_run C (initial_state sample_request)))
  ∧ ∃ v, ({[ "Polished_Blog" := VStr "the blog" ]} : gmap string pyval)
           !! "Polished_Blog" = Some v
         ∧ snd (pipeline_run C (initial_state sample_request))
           = Ok {[ "Final_Blog" := v ]}.
Proof.
  intros C c.
  assert (c ∈ log (fst (pipeline_run C (initial_state sample_request)))) as Hc.
  { apply (list_elem_of_lookup_2 _ 11). reflexivity. }
  split; [exact Hc|].
  refine (polished_blog_lookup_defined C (initial_state sample_request) c _ _
            {[ "Polished_Blog" := VStr "the blog" ]}
            Hc eq_refl eq_refl _ _).
  - reflexivity.
  - exists (VStr "the blog"). reflexivity.
Defined.

(** C9. Whenever [full_pipeline] returns, its result has exactly one of
    the keys [error] and [Final_Blog]: it is the one-entry error dict when
    the run stopped after the transcript fetch, and the one-entry
    [Final_Blog] dict when the run went through all twelve collaborators. *)
Theorem result_has_exactly_one_key C d res :
  snd (pipeline_run C d) = Ok res →
  ((∃ msg, res = {[ "error" := VStr msg ]}
           ∧ map callee (log (fst (pipeline_run C d))) = [GetTranscriptWithBackoff])
   ∨ (∃ v, res = {[ "Final_Blog" := v ]}
           ∧ map callee (log (fst (pipeline_run C d))) = pipeline_order))
  ∧ (is_Some (res !! "error") ∧ res !! "Final_Blog" = None
     ∨ res !! "error" = None ∧ is_Some (res !! "Final_Blog")).
Proof.
  pipeline_inv_any C d; [by intros [<- <-]%pair_equal_spec|].
  py_exec; intros [<- <-]%pair_equal_spec; cbn [fst snd log];
    try discriminate; intros [= <-].
  - split; [left; eauto|]. left. split; [|done].
    eexists. apply lookup_singleton_eq.
  - split; [right; eexists; by rewrite insert_empty|].
    right. split; [done|]. eexists. apply lookup_insert_eq.
Qed.

Lemma result_has_exactly_one_key_witness :
  let C := stub_collaborators "" in
  let res : gmap string pyval :=
    {[ "error" := VStr "Transcript not available for: https://youtu.be/abc12345678" ]} in
  snd (pipeline_run C (initial_state sample_request)) = Ok res
  ∧ (is_Some (res !! "error") ∧ res !! "Final_Blog" = None
     ∨ res !! "error" = None ∧ is_Some (res !! "Final_Blog")).
Proof.
  intros C res. split; [reflexivity|].
  exact (proj2 (result_has_exactly_one_key C (initial_state sample_request) res
                  eq_refl)).
Defined.

(** C6. An exception raised inside a collaborator (the fetcher, a
    generator, the domain aligner or the rewriter) is not caught by
    [full_pipeline]: the run ends there, raising that very exception, and
    the endpoint answers 500 with [str(e)] as detail. *)
Theorem collaborator_exception_response C request c e :
  c ∈ invocations C request →
  raises C (callee c) (arg c) = Some e →
  snd (pipeline_run C (initial_state request)) = Raise e
  ∧ last (invocations C request) = Some c
  ∧ run_pipeline C request = HTTPException 500 (exn_str e)
  ∧ serve C request
    = {| status := 500; body := {[ "detail" := VStr (exn_str e) ]} |}.
Proof.
  intros Hc Hraise. revert Hc.
  pipeline_inv_request C request.
  destruct (re_search (video_url request)) as [id|] eqn:Hs;
    [|by intros [<- <-]%pair_equal_spec ?%elem_of_nil].
  py_exec; intros [<- <-]%pair_equal_spec Hc; cbn [fst snd log] in Hc;
    log_cases Hc; subst c; cbn [raises callee arg] in Hraise;
    repeat match goal with
           | Heq : ?f = (_, _), H : context [raised_by ?f] |- _ => rewrite Heq in H
           end;
    cbn [raised_by] in Hraise; simplify_eq.
  all: done.
Qed.

Lemma collaborator_exception_response_witness :
  let C := stub_details_failing "hello" in
  let c := sample_details_call in
  c ∈ invocations C sample_request
  ∧ raises C (callee c) (arg c) = Some (ValueError "no JSON in the model output")
  ∧ serve C sample_request
    = {| status := 500;
         body := {[ "detail" := VStr "no JSON in the model output" ]} |}.
Proof.
  intros C c.
  assert (c ∈ invocations C sample_request) as Hc.
  { apply (list_elem_of_lookup_2 _ 1). reflexivity. }
  split; [exact Hc|]. split; [reflexivity|].
  exact (proj2 (proj2 (proj2 (collaborator_exception_response C sample_request c
                                (ValueError "no JSON in the model output")
                                Hc eq_refl)))).
Defined.

(** C7. [full_pipeline] builds [combined_data_keyword_specific_details]
    and hands the state to [generate_intro] at once, so the runs that reach
    the construction are those in which [generate_intro] is invoked. In
    each of them, with [s] the state as [generate_topic_keyword] left it,
    the entry built is the two-key dict of [s.get("extracted_keywords")]
    and [s.get("extracted_section")], and the state is [s] with that entry
    set. *)
Theorem keyword_details_at_construction C d c :
  c ∈ log (fst (pipeline_run C d)) →
  callee c = GenerateIntro →
  ∃ c' s,
    c' ∈ log (fst (pipeline_run C d))
    ∧ callee c' = GenerateTopicKeyword
    ∧ fst (generate_topic_keyword C (arg c')) = s
    ∧ arg c !! "combined_data_keyword_specific_details"
      = Some (VDict {[ "topic_keyword" := default VNone (s !! "extracted_keywords");
                       "specific_details" := default VNone (s !! "extracted_section") ]})
    ∧ arg c
      = <["combined_data_keyword_specific_details" :=
            VDict {[ "topic_keyword" := default VNone (s !! "extracted_keywords");
                     "specific_details" := default VNone (s !! "extracted_section") ]}]> s.
Proof.
  intros Hc Hcallee. revert Hc.
  pipeline_inv_any C d; [by intros [<- <-]%pair_equal_spec ?%elem_of_nil|].
  py_exec; intros [<- <-]%pair_equal_spec Hc; cbn [fst snd log] in Hc |- *;
    log_cases Hc; subst c; try discriminate Hcallee.
  all: eexists _, _; split; [apply (list_elem_of_lookup_2 _ 2); reflexivity|];
    split; [reflexivity|]; cbn [arg];
    match goal with
    | Heq : generate_topic_keyword _ _ = _ |- _ => rewrite Heq
    end;
    split; [reflexivity|]; split; [apply lookup_insert_eq | reflexivity].
Qed.

Lemma keyword_details_at_construction_witness :
  let C := stub_collaborators "hello" in
  let c := sample_intro_call in
  c ∈ log (fst (pipeline_run C (initial_state sample_request)))
  ∧ callee c = GenerateIntro
  ∧ ∃ c' s,
      c' ∈ log (fst (pipeline_run C (initial_state sample_request)))
      ∧ callee c' = GenerateTopicKeyword
      ∧ fst (generate_topic_keyword C (arg c')) = s
      ∧ arg c !! "combined_data_keyword_specific_details"
        = Some (VDict {[ "topic_keyword" := default VNone (s !! "extracted_keywords");
                         "specific_details" := default VNone (s !! "extracted_section") ]})
      ∧ arg c
        = <["combined_data_keyword_specific_details" :=
              VDict {[ "topic_keyword" := default VNone (s !! "extracted_keywords");
                       "specific_details" := default VNone (s !! "extracted_section") ]}]> s.
Proof.
  intros C c.
  assert (c ∈ log (fst (pipeline_run C (initial_state sample_request)))) as Hc.
  { apply (list_elem_of_lookup_2 _ 3). reflexivity. }
  split; [exact Hc|]. split; [reflexivity|].
  exact (keyword_details_at_construction C (initial_state sample_request) c
           Hc eq_refl).
Defined.

Example sample_intro_call_entry :
  arg sample_intro_call !! "combined_data_keyword_specific_details"
  = Some (VDict {[ "topic_keyword" := VDict {[ "Topic" := VStr "automation" ]};
                   "specific_details" := VDict {[ "Tools" := VStr "n8n" ]} ]}).
Proof. reflexivity. Qed.

(** C5, as stated, fails: a transcript fetch that succeeds does not make
    the later steps run. Here the fetch returns a good transcript, the
    specific-details extractor raises, and no generator after it is
    invoked. *)
Lemma later_steps_skipped_after_raise :
  let C := stub_details_failing "hello" in
  get_transcript_with_backoff C
    (<["video_id" := VStr "abc12345678"]> (initial_state sample_request))
  = (<["video_id" := VStr "abc12345678"]> (initial_state sample_request), Ok "hello")
  ∧ "hello" ≠ "" ∧ ¬ occurs_in "Failed after multiple retries" "hello"
  ∧ map callee (invocations C sample_request)
    = [GetTranscriptWithBackoff; ExtractSpecificDetails]
  ∧ GenerateTopicKeyword ∉ map callee (invocations C sample_request).
Proof.
  intros C. split; [reflexivity|]. split; [discriminate|].
  split; [by intros H%py_in_spec|]. split; [reflexivity|].
  change (GenerateTopicKeyword ∉ [GetTranscriptWithBackoff; ExtractSpecificDetails]).
  intros H. apply list_elem_of_In in H. simpl in H. intuition discriminate.
Qed.

(** C5, amended. For a request whose transcript fetch succeeds (a
    non-empty string without the sentinel) and on which none of the later
    steps raises: the collaborators invoked are the twelve of
    [pipeline_order], each once and in that order, and each is handed the
    state as the steps before it left it (with [transcript],
    [combined_data_keyword_specific_details] and [combined_data] set by
    [full_pipeline] on the way). *)
Theorem steps_once_in_order C request id d1 t d2 r2 d3 r3
    x4 s4 x5 s5 x6 s6 x7 s7 x8 s8 x9 s9 x10 s10 x11 s11 x12 s12 :
  re_search (video_url request) = Some id →
  get_transcript_with_backoff C (<["video_id" := VStr id]> (initial_state request))
  = (d1, Ok t) →
  t ≠ "" →
  ¬ occurs_in "Failed after multiple retries" t →
  extract_specific_details C (<["transcript" := VStr t]> d1) = (d2, Ok r2) →
  generate_topic_keyword C d2 = (d3, Ok r3) →
  generate_intro C
    (<["combined_data_keyword_specific_details" := keyword_specific_details d3]> d3)
  = (x4, Ok s4) →
  refine_intro C s4 = (x5, Ok s5) →
  generate_guide C s5 = (x6, Ok s6) →
  generate_issue_troubleshooting C s6 = (x7, Ok s7) →
  generate_conclusion C s7 = (x8, Ok s8) →
  generate_cta C s8 = (x9, Ok s9) →
  generate_customization_tips C s9 = (x10, Ok s10) →
  domain_aligned C (<["combined_data" := combined_sections s10]> s10) = (x11, Ok s11) →
  rewrite_blog C s11 = (x12, Ok s12) →
  invocations C request
  = [ {| callee := GetTranscriptWithBackoff;
         arg := <["video_id" := VStr id]> (initial_state request) |};
      {| callee := ExtractSpecificDetails; arg := <["transcript" := VStr t]> d1 |};
      {| callee := GenerateTopicKeyword; arg := d2 |};
      {| callee := GenerateIntro;
         arg := <["combined_data_keyword_specific_details" :=
                    keyword_specific_details d3]> d3 |};
      {| callee := RefineIntro; arg := s4 |};
      {| callee := GenerateGuide; arg := s5 |};
      {| callee := GenerateIssueTroubleshooting; arg := s6 |};
      {| callee := GenerateConclusion; arg := s7 |};
      {| callee := GenerateCta; arg := s8 |};
      {| callee := GenerateCustomizationTips; arg := s9 |};
      {| callee := DomainAligned;
         arg := <["combined_data" := combined_sections s10]> s10 |};
      {| callee := RewriteBlog; arg := s11 |} ]
  ∧ map callee (invocations C request) = pipeline_order.
Proof.
  intros Hs H1 Hne Hocc H2 H3 H4 H5 H6 H7 H8 H9 H10 H11 H12.
  assert (negb (truthy (VStr t)) || py_in sentinel t = false) as Hgood
    by by apply good_transcript_spec.
  unfold keyword_specific_details, combined_sections in *.
  cut (invocations C request
       = [ {| callee := GetTranscriptWithBackoff;
              arg := <["video_id" := VStr id]> (initial_state request) |};
           {| callee := ExtractSpecificDetails; arg := <["transcript" := VStr t]> d1 |};
           {| callee := GenerateTopicKeyword; arg := d2 |};
           {| callee := GenerateIntro;
              arg := <["combined_data_keyword_specific_details" :=
                         VDict {[ "topic_keyword" := default VNone (d3 !! "extracted_keywords");
                                  "specific_details" := default VNone (d3 !! "extracted_section") ]}]> d3 |};
           {| callee := RefineIntro; arg := s4 |};
           {| callee := GenerateGuide; arg := s5 |};
           {| callee := GenerateIssueTroubleshooting; arg := s6 |};
           {| callee := GenerateConclusion; arg := s7 |};
           {| callee := GenerateCta; arg := s8 |};
           {| callee := GenerateCustomizationTips; arg := s9 |};
           {| callee := DomainAligned;
              arg := <["combined_data" :=
                         VDict {[ "introduction" := default VNone (s10 !! "refined_intro");
                                  "guide" := default VNone (s10 !! "guide");
                                  "issue_troubleshoot" := default VNone (s10 !! "issue_troubleshoot");
                                  "conclusion" := default VNone (s10 !! "conclusion");
                                  "cta" := default VNone (s10 !! "cta");
                                  "customization_tips" := default VNone (s10 !! "customization_tips") ]}]> s10 |};
           {| callee := RewriteBlog; arg := s11 |} ]).
  { intros ->. split; reflexivity. }
  pipeline_inv_request C request. rewrite Hs.
  py_exec; by intros [<- <-]%pair_equal_spec.
Qed.

Lemma steps_once_in_order_witness :
  let C := stub_collaborators "hello" in
  re_search (video_url sample_request) = Some "abc12345678"
  ∧ "hello" ≠ ""
  ∧ ¬ occurs_in "Failed after multiple retries" "hello"
  ∧ map callee (invocations C sample_request) = pipeline_order.
Proof.
  intros C.
  assert ("hello" ≠ "") as Hne by discriminate.
  assert (¬ occurs_in "Failed after multiple retries" "hello") as Hocc
    by (by intros H%py_in_spec).
  split; [reflexivity|]. split; [exact Hne|]. split; [exact Hocc|].
  refine (proj2 (steps_once_in_order C sample_request "abc12345678"
                   _ "hello" _ _ _ _ _ _ _ _ _ _ _ _ _ _ _ _ _ _ _ _ _ _
                   eq_refl eq_refl Hne Hocc eq_refl eq_refl eq_refl eq_refl
                   eq_refl eq_refl eq_refl eq_refl eq_refl eq_refl eq_refl)).
Defined.

(** X14. Whatever happens, the collaborators invoked are an initial
    segment of [pipeline_order]: none is invoked twice, none out of turn,
    none after one that was skipped. *)
Lemma invocations_initial_segment C d :
  ∃ n, map callee (log (fst (pipeline_run C d))) = take n pipeline_order.
Proof.
  pipeline_inv_any C d; [intros [<- <-]%pair_equal_spec; by exists 0|].
  py_exec; intros [<- <-]%pair_equal_spec; cbn [fst log map callee].
  all: first [ by exists 1 | by exists 2 | by exists 3 | by exists 4
             | by exists 5 | by exists 6 | by exists 7 | by exists 8
             | by exists 9 | by exists 10 | by exists 11 | by exists 12 ].
Qed.

Example sample_run :
  serve (stub_collaborators "hello") sample_request
  = {| status := 200; body := {[ "Final_Blog" := VStr "the blog" ]} |}.
Proof. reflexivity. Qed.

Example sample_run_no_transcript :
  serve (stub_collaborators "") sample_request
  = {| status := 200;
       body := {[ "error" := VStr "Transcript not available for: https://youtu.be/abc12345678" ]} |}.
Proof. reflexivity. Qed.

Example sample_run_details_failing :
  serve (stub_details_failing "hello") sample_request
  = {| status := 500; body := {[ "detail" := VStr "no JSON in the model output" ]} |}.
Proof. reflexivity. Qed.

(** * Further properties of [extract_video_id] *)



Lemma extract_video_id_unfold w :
  extract_video_id w
  = match search_video_id (py_or (default VNone (st w !! "video_url")) (VStr "")) with
    | Ok (Some id) =>
        ({| st := <["video_id" := VStr id]> (st w); log := log w |},
         Ok (<["video_id" := VStr id]> (st w)))
    | Ok None => (w, Raise (ValueError "Could not extract video ID from URL"))
    | Raise e => (w, Raise e)
    end.
Proof.
  unfold extract_video_id. rewrite run_bind_state_get. cbv zeta.
  rewrite run_bind_lift_result.
  destruct (search_video_id _) as [[id|]|e]; reflexivity.
Qed.

(** X1. A state whose [video_url] is absent, [None], the empty string or
    an empty dict: [state.get("video_url") or ""] is the empty string,
    nothing matches, and [extract_video_id] raises its [ValueError]
    leaving the state as it was. *)
Theorem extract_video_id_falsy_url w :
  truthy (default VNone (st w !! "video_url")) = false →
  extract_video_id w
  = (w, Raise (ValueError "Could not extract video ID from URL")).
Proof.
  intros Hf. rewrite extract_video_id_unfold. unfold py_or. by rewrite Hf.
Qed.

Lemma extract_video_id_falsy_url_witness :
  let w := {| st := {[ "domain_url" := VStr "https://example.com" ]}; log := [] |} in
  truthy (default VNone (st w !! "video_url")) = false
  ∧ extract_video_id w
    = (w, Raise (ValueError "Could not extract video ID from URL")).
Proof.
  intros w. split; [reflexivity|].
  exact (extract_video_id_falsy_url w eq_refl).
Defined.

(** X2. A state whose [video_url] is a non-empty dict: [re.search] is
    handed something that is not a string, and [extract_video_id] raises
    a [TypeError], not its [ValueError], leaving the state as it was. *)
Theorem extract_video_id_dict_url w dd :
  st w !! "video_url" = Some (VDict dd) →
  size dd ≠ 0 →
  ∃ e, extract_video_id w = (w, Raise e) ∧ exn_class e = "TypeError".
Proof.
  intros Hurl Hsize. rewrite extract_video_id_unfold, Hurl.
  unfold py_or. cbn [default from_option id truthy].
  destruct (Nat.eqb_spec (size dd) 0) as [?|_]; [done|].
  cbn [negb search_video_id]. eauto.
Qed.

Lemma extract_video_id_dict_url_witness :
  let dd : gmap string pyval := {[ "href" := VStr "https://youtu.be/abc12345678" ]} in
  let w := {| st := {[ "video_url" := VDict dd ]}; log := [] |} in
  size dd ≠ 0
  ∧ ∃ e, extract_video_id w = (w, Raise e) ∧ exn_class e = "TypeError".
Proof.
  intros dd w.
  assert (size dd ≠ 0) as Hsize by (vm_compute; discriminate).
  split; [exact Hsize|].
  exact (extract_video_id_dict_url w dd eq_refl Hsize).
Defined.

(** X3. When [extract_video_id] returns, it returns the state it was
    handed; in it [video_id] is a string of eleven letters, digits, [_] or
    [-], every other entry is as before, and nothing has been invoked. *)
Theorem extract_video_id_frame w w' r :
  extract_video_id w = (w', Ok r) →
  r = st w' ∧ log w' = log w
  ∧ (∃ id, st w' !! "video_id" = Some (VStr id)
           ∧ String.length id = 11 ∧ all_id_chars id = true)
  ∧ ∀ k, k ≠ "video_id" → st w' !! k = st w !! k.
Proof.
  intros H.
  destruct (extract_video_id_cases w) as [[e He]|(url & id & _ & Hs & He)];
    rewrite He in H; [discriminate|].
  apply pair_equal_spec in H as [<- H]. injection H as <-. cbn [st log].
  split; [done|]. split; [done|]. split.
  - exists id. split; [apply lookup_insert_eq|].
    apply re_search_Some in Hs as (i & (pre & sep & post & _ & _ & _ & Hlen & Hall) & _).
    done.
  - intros k Hk. by apply lookup_insert_ne.
Qed.

Lemma extract_video_id_frame_witness :
  let d : gmap string pyval :=
    {[ "video_url" := VStr "https://youtu.be/abc12345678"; "raw_blog" := VStr "draft" ]} in
  let w := {| st := d; log := [] |} in
  let w' := {| st := <["video_id" := VStr "abc12345678"]> d; log := [] |} in
  extract_video_id w = (w', Ok (st w'))
  ∧ ∀ k, k ≠ "video_id" → st w' !! k = st w !! k.
Proof.
  intros d w w'. split; [reflexivity|].
  exact (proj2 (proj2 (proj2 (extract_video_id_frame w w' (st w') eq_refl)))).
Defined.

(** X4. Calling [extract_video_id] again on the state it returned changes
    nothing: it returns the same state, with the same [video_id]. *)
Theorem extract_video_id_idempotent w w' r :
  extract_video_id w = (w', Ok r) →
  extract_video_id w' = (w', Ok r).
Proof.
  intros H. rewrite extract_video_id_unfold in H.
  rewrite extract_video_id_unfold.
  destruct (search_video_id (py_or (default VNone (st w !! "video_url")) (VStr "")))
    as [[id|]|e] eqn:Hsearch; try discriminate.
  apply pair_equal_spec in H as [<- H]. injection H as <-. cbn [st log].
  rewrite lookup_insert_ne by done. rewrite Hsearch.
  by rewrite insert_insert_eq.
Qed.

Lemma extract_video_id_idempotent_witness :
  let d : gmap string pyval :=
    {[ "video_url" := VStr "https://www.youtube.com/watch?v=dQw4w9WgXcQ" ]} in
  let w := {| st := d; log := [] |} in
  let w' := {| st := <["video_id" := VStr "dQw4w9WgXcQ"]> d; log := [] |} in
  extract_video_id w = (w', Ok (st w'))
  ∧ extract_video_id w' = (w', Ok (st w')).
Proof.
  intros d w w'. split; [reflexivity|].
  exact (extract_video_id_idempotent w w' (st w') eq_refl).
Defined.



(** * Further properties of [full_pipeline] and the endpoint *)

(** X6. [full_pipeline] builds [combined_data] and hands the state to
    [domain_aligned] at once. In every run in which [domain_aligned] is
    invoked, with [s] the state that [generate_customization_tips]
    returned, the entry is the six-key dict of [s.get(...)] for
    [refined_intro], [guide], [issue_troubleshoot], [conclusion], [cta]
    and [customization_tips] (a key that [s] lacks gives [None], not an
    error), and the state handed on is [s] with that entry set. *)
Theorem combined_data_at_construction C d c :
  c ∈ log (fst (pipeline_run C d)) →
  callee c = DomainAligned →
  ∃ c' x s,
    c' ∈ log (fst (pipeline_run C d))
    ∧ callee c' = GenerateCustomizationTips
    ∧ generate_customization_tips C (arg c') = (x, Ok s)
    ∧ arg c !! "combined_data"
      = Some (VDict {[ "introduction" := default VNone (s !! "refined_intro");
                       "guide" := default VNone (s !! "guide");
                       "issue_troubleshoot" := default VNone (s !! "issue_troubleshoot");
                       "conclusion" := default VNone (s !! "conclusion");
                       "cta" := default VNone (s !! "cta");
                       "customization_tips" := default VNone (s !! "customization_tips") ]})
    ∧ arg c = <["combined_data" := combined_sections s]> s.
Proof.
  intros Hc Hcallee. revert Hc.
  pipeline_inv_any C d; [by intros [<- <-]%pair_equal_spec ?%elem_of_nil|].
  py_exec; intros [<- <-]%pair_equal_spec Hc; cbn [fst snd log] in Hc |- *;
    log_cases Hc; subst c; try discriminate Hcallee.
  all: eexists _, _, _; split; [apply (list_elem_of_lookup_2 _ 9); reflexivity|];
    split; [reflexivity|]; cbn [arg];
    split; [eassumption|]; split; [apply lookup_insert_eq | reflexivity].
Qed.

Lemma combined_data_at_construction_witness :
  let C := stub_collaborators "hello" in
  let c := sample_aligner_call in
  c ∈ log (fst (pipeline_run C (initial_state sample_request)))
  ∧ callee c = DomainAligned
  ∧ ∃ c' x s,
      c' ∈ log (fst (pipeline_run C (initial_state sample_request)))
      ∧ callee c' = GenerateCustomizationTips
      ∧ generate_customization_tips C (arg c') = (x, Ok s)
      ∧ arg c !! "combined_data"
        = Some (VDict {[ "introduction" := default VNone (s !! "refined_intro");
                         "guide" := default VNone (s !! "guide");
                         "issue_troubleshoot" := default VNone (s !! "issue_troubleshoot");
                         "conclusion" := default VNone (s !! "conclusion");
                         "cta" := default VNone (s !! "cta");
                         "customization_tips" := default VNone (s !! "customization_tips") ]})
      ∧ arg c = <["combined_data" := combined_sections s]> s.
Proof.
  intros C c.
  assert (c ∈ log (fst (pipeline_run C (initial_state sample_request)))) as Hc.
  { apply (list_elem_of_lookup_2 _ 10). reflexivity. }
  split; [exact Hc|]. split; [reflexivity|].
  exact (combined_data_at_construction C (initial_state sample_request) c Hc eq_refl).
Defined.

(** X7. The specific-details extractor is invoked only after a fetch that
    returned a non-empty transcript without the sentinel, and the state it
    is handed is the one the fetcher left, with that text stored under
    [transcript]. *)
Theorem transcript_stored_before_details C d c' :
  c' ∈ log (fst (pipeline_run C d)) →
  callee c' = ExtractSpecificDetails →
  ∃ c d1 t,
    c ∈ log (fst (pipeline_run C d))
    ∧ callee c = GetTranscriptWithBackoff
    ∧ get_transcript_with_backoff C (arg c) = (d1, Ok t)
    ∧ t ≠ "" ∧ ¬ occurs_in "Failed after multiple retries" t
    ∧ arg c' = <["transcript" := VStr t]> d1.
Proof.
  intros Hc Hcallee. revert Hc.
  pipeline_inv_any C d; [by intros [<- <-]%pair_equal_spec ?%elem_of_nil|].
  py_exec; intros [<- <-]%pair_equal_spec Hc; cbn [fst snd log] in Hc |- *;
    log_cases Hc; subst c'; try discriminate Hcallee.
  all: match goal with
       | Hb : _ || _ = false |- _ => apply good_transcript_spec in Hb as [? ?]
       end.
  all: eexists _, _, _; split; [apply (list_elem_of_lookup_2 _ 0); reflexivity|];
    split; [reflexivity|]; cbn [arg];
    split; [eassumption|]; done.
Qed.

Lemma transcript_stored_before_details_witness :
  let C := stub_details_failing "hello" in
  let c' := sample_details_call in
  c' ∈ log (fst (pipeline_run C (initial_state sample_request)))
  ∧ callee c' = ExtractSpecificDetails
  ∧ ∃ c d1 t,
      c ∈ log (fst (pipeline_run C (initial_state sample_request)))
      ∧ callee c = GetTranscriptWithBackoff
      ∧ get_transcript_with_backoff C (arg c) = (d1, Ok t)
      ∧ t ≠ "" ∧ ¬ occurs_in "Failed after multiple retries" t
      ∧ arg c' = <["transcript" := VStr t]> d1.
Proof.
  intros C c'.
  assert (c' ∈ log (fst (pipeline_run C (initial_state sample_request)))) as Hc.
  { apply (list_elem_of_lookup_2 _ 1). reflexivity. }
  split; [exact Hc|]. split; [reflexivity|].
  exact (transcript_stored_before_details C (initial_state sample_request) c'
           Hc eq_refl).
Defined.

(** X8. Conversely, a fetch that returns a non-empty transcript without
    the sentinel is always followed by the call of the specific-details
    extractor, on the state the fetcher left with the text stored under
    [transcript]. *)
Theorem good_transcript_continues C d c d1 t :
  c ∈ log (fst (pipeline_run C d)) →
  callee c = GetTranscriptWithBackoff →
  get_transcript_with_backoff C (arg c) = (d1, Ok t) →
  t ≠ "" →
  ¬ occurs_in "Failed after multiple retries" t →
  log (fst (pipeline_run C d)) !! 1
  = Some {| callee := ExtractSpecificDetails; arg := <["transcript" := VStr t]> d1 |}.
Proof.
  intros Hc Hcallee Hfetch Hne Hocc.
  assert (negb (truthy (VStr t)) || py_in sentinel t = false) as Hgood
    by by apply good_transcript_spec.
  revert Hc.
  pipeline_inv_any C d; [by intros [<- <-]%pair_equal_spec ?%elem_of_nil|].
  py_exec; intros [<- <-]%pair_equal_spec Hc; cbn [fst snd log] in Hc |- *;
    log_cases Hc; subst c; try discriminate Hcallee; cbn [arg] in Hfetch;
    unify_eqs; reflexivity.
Qed.

Lemma good_transcript_continues_witness :
  let C := stub_collaborators "hello" in
  let c := sample_fetch_call in
  c ∈ log (fst (pipeline_run C (initial_state sample_request)))
  ∧ "hello" ≠ ""
  ∧ ¬ occurs_in "Failed after multiple retries" "hello"
  ∧ log (fst (pipeline_run C (initial_state sample_request))) !! 1
    = Some {| callee := ExtractSpecificDetails;
              arg := <["transcript" := VStr "hello"]> (arg c) |}.
Proof.
  intros C c.
  assert (c ∈ log (fst (pipeline_run C (initial_state sample_request)))) as Hc.
  { apply (list_elem_of_lookup_2 _ 0). reflexivity. }
  assert ("hello" ≠ "") as Hne by discriminate.
  assert (¬ occurs_in "Failed after multiple retries" "hello") as Hocc
    by (by intros H%py_in_spec).
  split; [exact Hc|]. split; [exact Hne|]. split; [exact Hocc|].
  exact (good_transcript_continues C (initial_state sample_request) c (arg c) "hello"
           Hc eq_refl eq_refl Hne Hocc).
Defined.

(** X9. Whenever the fetcher is invoked for a request, the state it is
    handed is the initial state of the request with [video_id] set to the
    eleven characters after the leftmost place of [video_url] where [v=]
    or [/] is followed by eleven characters of the class; it is the first
    collaborator invoked. *)
Theorem fetcher_receives_video_id C request c :
  c ∈ invocations C request →
  callee c = GetTranscriptWithBackoff →
  ∃ i id,
    id_at (video_url request) i id
    ∧ (∀ j id', id_at (video_url request) j id' → i ≤ j)
    ∧ arg c = <["video_id" := VStr id]> (initial_state request)
    ∧ invocations C request !! 0 = Some c.
Proof.
  intros Hc Hcallee. revert Hc.
  pipeline_inv_request C request.
  destruct (re_search (video_url request)) as [id|] eqn:Hs;
    [|by intros [<- <-]%pair_equal_spec ?%elem_of_nil].
  apply re_search_Some in Hs as (i & Hi & Hleft).
  py_exec; intros [<- <-]%pair_equal_spec Hc; cbn [fst snd log] in Hc |- *;
    log_cases Hc; subst c; try discriminate Hcallee.
  all: by exists i, id.
Qed.

Lemma fetcher_receives_video_id_witness :
  let C := stub_collaborators "hello" in
  let c := sample_fetch_call in
  c ∈ invocations C sample_request
  ∧ callee c = GetTranscriptWithBackoff
  ∧ ∃ i id,
      id_at (video_url sample_request) i id
      ∧ (∀ j id', id_at (video_url sample_request) j id' → i ≤ j)
      ∧ arg c = <["video_id" := VStr id]> (initial_state sample_request)
      ∧ invocations C sample_request !! 0 = Some c.
Proof.
  intros C c.
  assert (c ∈ invocations C sample_request) as Hc.
  { apply (list_elem_of_lookup_2 _ 0). reflexivity. }
  split; [exact Hc|]. split; [reflexivity|].
  exact (fetcher_receives_video_id C sample_request c Hc eq_refl).
Defined.

(** X10. A rewriter that returns a state from which
    [state["final_blog"]["Polished_Blog"]] cannot be read makes the
    request fail: 500 with the quoted key as detail when [final_blog] or
    [Polished_Blog] is missing, and 500 with the [TypeError] of
    subscripting [None] when [final_blog] is still [None], as the initial
    state has it. *)
Theorem unreadable_final_blog_response C request c x s :
  c ∈ invocations C request →
  callee c = RewriteBlog →
  rewrite_blog C (arg c) = (x, Ok s) →
  (s !! "final_blog" = None →
   serve C request
   = {| status := 500; body := {[ "detail" := VStr "'final_blog'" ]} |})
  ∧ (s !! "final_blog" = Some VNone →
     serve C request
     = {| status := 500;
          body := {[ "detail" := VStr "'NoneType' object is not subscriptable" ]} |})
  ∧ (∀ fb, s !! "final_blog" = Some (VDict fb) →
           fb !! "Polished_Blog" = None →
           serve C request
           = {| status := 500; body := {[ "detail" := VStr "'Polished_Blog'" ]} |}).
Proof.
  intros Hc Hcallee Hrw. revert Hc.
  pipeline_inv_request C request.
  destruct (re_search (video_url request)) as [id|] eqn:Hs;
    [|by intros [<- <-]%pair_equal_spec ?%elem_of_nil].
  py_exec; intros [<- <-]%pair_equal_spec Hc; cbn [fst snd log] in Hc;
    log_cases Hc; subst c; try discriminate Hcallee; cbn [arg] in Hrw;
    unify_eqs.
  all: cbn [snd].
  all: split; [intros Hnone; unify_eqs; done|].
  all: split; [intros Hnone; unify_eqs|intros fb Hfb Hpb; unify_eqs].
  all: match goal with
       | H : py_getitem _ _ = _ |- _ => cbn [py_getitem] in H
       end.
  all: try match goal with
       | H : context [?m !! "Polished_Blog"], H' : ?m !! "Polished_Blog" = None |- _ =>
           rewrite H' in H
       end; simplify_eq; done.
Qed.

Lemma unreadable_final_blog_response_witness :
  let C := stub_rewriter_silent "hello" in
  let c := sample_silent_rewriter_call in
  c ∈ invocations C sample_request
  ∧ arg c !! "final_blog" = Some VNone
  ∧ serve C sample_request
    = {| status := 500;
         body := {[ "detail" := VStr "'NoneType' object is not subscriptable" ]} |}.
Proof.
  intros C c.
  assert (c ∈ invocations C sample_request) as Hc.
  { apply (list_elem_of_lookup_2 _ 11). reflexivity. }
  split; [exact Hc|]. split; [reflexivity|].
  exact (proj1 (proj2 (unreadable_final_blog_response C sample_request c
                         (arg c) (arg c) Hc eq_refl eq_refl)) eq_refl).
Defined.

(** X11. A [Final_Blog] in the result of [full_pipeline] is never made
    up: the rewriter was invoked and returned a state whose [final_blog]
    is a dict with exactly that value under [Polished_Blog]. *)
Theorem final_blog_comes_from_rewriter C d res v :
  snd (pipeline_run C d) = Ok res →
  res !! "Final_Blog" = Some v →
  ∃ c x s fb,
    c ∈ log (fst (pipeline_run C d))
    ∧ callee c = RewriteBlog
    ∧ rewrite_blog C (arg c) = (x, Ok s)
    ∧ s !! "final_blog" = Some (VDict fb)
    ∧ fb !! "Polished_Blog" = Some v.
Proof.
  intros Hres Hv. revert Hres.
  pipeline_inv_any C d; [by intros [<- <-]%pair_equal_spec|].
  py_exec; intros [<- <-]%pair_equal_spec; cbn [fst snd log];
    try discriminate; intros [= <-].
  - by rewrite lookup_singleton_ne in Hv.
  - rewrite lookup_insert_eq in Hv. injection Hv as ->.
    match goal with
    | H : py_getitem ?p _ = _ |- _ =>
        destruct p as [| |fb]; cbn [py_getitem] in H; try discriminate H;
        destruct (fb !! "Polished_Blog") eqn:Hpb; simplify_eq
    end.
    eexists _, _, _, fb. split; [apply (list_elem_of_lookup_2 _ 11); reflexivity|].
    split; [reflexivity|]. cbn [arg]. split; [eassumption|]. done.
Qed.

Lemma final_blog_comes_from_rewriter_witness :
  let C := stub_collaborators "hello" in
  let res : gmap string pyval := {[ "Final_Blog" := VStr "the blog" ]} in
  snd (pipeline_run C (initial_state sample_request)) = Ok res
  ∧ ∃ c x s fb,
      c ∈ log (fst (pipeline_run C (initial_state sample_request)))
      ∧ callee c = RewriteBlog
      ∧ rewrite_blog C (arg c) = (x, Ok s)
      ∧ s !! "final_blog" = Some (VDict fb)
      ∧ fb !! "Polished_Blog" = Some (VStr "the blog").
Proof.
  intros C res. split; [reflexivity|].
  exact (final_blog_comes_from_rewriter C (initial_state sample_request) res
           (VStr "the blog") eq_refl eq_refl).
Defined.



